(** * Verification of zc_messaging: the reaction engine of
    [backend/utils/message_utils.py] and the gateway of [backend/utils/db.py].

    Python values are embedded directly: strings as [string], integers as [Z],
    Python lists as Rocq lists.  A call that may raise returns an [outcome]:
    either the value it returns or the exception it raises. *)

From Stdlib Require Import String List ZArith Lia Bool.
Import ListNotations.
Open Scope Z_scope.
Open Scope string_scope.
Open Scope list_scope.
Set Warnings "-register-all".

(** ** Python exceptions and the outcome of a call *)

Inductive pyexc : Type :=
| IndexError
| ValueError
| KeyError
| TypeError
| AttributeError
| JSONDecodeError.

Inductive outcome (A : Type) : Type :=
| Ret (a : A)
| Exc (e : pyexc).
Arguments Ret {A} a.
Arguments Exc {A} e.

Definition obind {A B} (c : outcome A) (k : A -> outcome B) : outcome B :=
  match c with
  | Ret a => k a
  | Exc e => Exc e
  end.

Notation "x <- c ;; k" := (obind c (fun x => k))
  (at level 61, c at next level, right associativity).

(** ** Emoji reactions *)

(** An [Emoji] dict: [{"name", "reactedUsersId", "count"}]. *)
Record Emoji : Type := mkEmoji {
  name : string;
  reactedUsersId : list string;
  count : Z
}.

(** Python [==] on two lists of strings. *)
Fixpoint strings_eqb (a b : list string) : bool :=
  match a, b with
  | [], [] => true
  | x :: a', y :: b' => String.eqb x y && strings_eqb a' b'
  | _, _ => false
  end.

(** Python [==] on two such dicts: key by key. *)
Definition Emoji_eqb (a b : Emoji) : bool :=
  String.eqb (name a) (name b)
  && strings_eqb (reactedUsersId a) (reactedUsersId b)
  && Z.eqb (count a) (count b).

(** [xs[0]]: raises [IndexError] on an empty list. *)
Definition py_index0 {A} (xs : list A) : outcome A :=
  match xs with
  | [] => Exc IndexError
  | x :: _ => Ret x
  end.

(** [x in xs] for a list of strings. *)
Definition py_in (x : string) (xs : list string) : bool :=
  existsb (String.eqb x) xs.

(** [xs.remove(x)]: drops the first element equal to [x], raises
    [ValueError] when there is none. *)
Fixpoint py_remove (x : string) (xs : list string) : outcome (list string) :=
  match xs with
  | [] => Exc ValueError
  | y :: ys =>
      if String.eqb y x then Ret ys
      else (r <- py_remove x ys ;; Ret (y :: r))
  end.

(** *** The shared store

    [append_emoji], [remove_emoji] and [toggle_reaction] mutate the dict
    [emoji] in place, and that same dict object is (normally) an element of
    the caller's list [reactions].  The list is therefore modelled as a list
    of slots: a slot [This] is the very object [emoji] (so it sees every
    mutation of [emoji]), a slot [Other e] is another dict with value [e]. *)
Inductive slot : Type :=
| This
| Other (e : Emoji).

Record state : Type := mkState {
  emoji : Emoji;
  reactions : list slot
}.

(** The value of the list [reactions] as the caller observes it. *)
Definition view (s : state) : list Emoji :=
  map (fun sl => match sl with This => emoji s | Other e => e end)
      (reactions s).

(** [reactions.remove(emoji)]: Python compares by identity first, then by
    [==]; the first slot that is [emoji] itself or equal to its value goes. *)
Fixpoint remove_slot (e : Emoji) (l : list slot) : outcome (list slot) :=
  match l with
  | [] => Exc ValueError
  | This :: l' => Ret l'
  | Other y :: l' =>
      if Emoji_eqb y e then Ret l'
      else (r <- remove_slot e l' ;; Ret (Other y :: r))
  end.

(** [append_emoji(emoji, payload)]: the result is the state after the call;
    the returned value is its [emoji]. *)
Definition append_emoji (payload : Emoji) (s : state) : outcome state :=
  let e := emoji s in
  u <- py_index0 (reactedUsersId payload) ;;
  let e1 := mkEmoji (name e) (reactedUsersId e ++ [u]) (count e) in
  let e2 := mkEmoji (name e1) (reactedUsersId e1) (count e1 + 1) in
  Ret (mkState e2 (reactions s)).

(** [remove_emoji(emoji, payload, reactions)]. *)
Definition remove_emoji (payload : Emoji) (s : state) : outcome state :=
  let e := emoji s in
  u <- py_index0 (reactedUsersId payload) ;;
  users <- py_remove u (reactedUsersId e) ;;
  let e1 := mkEmoji (name e) users (count e) in
  let e2 := mkEmoji (name e1) (reactedUsersId e1) (count e1 - 1) in
  if Z.eqb (count e2) 0 then
    (rs <- remove_slot e2 (reactions s) ;; Ret (mkState e2 rs))
  else Ret (mkState e2 (reactions s)).

(** [toggle_reaction(emoji, payload, reactions)]. *)
Definition toggle_reaction (payload : Emoji) (s : state) : outcome state :=
  u <- py_index0 (reactedUsersId payload) ;;
  if negb (py_in u (reactedUsersId (emoji s))) then append_emoji payload s
  else remove_emoji payload s.

(** [get_member_emoji(emoji_name, emojis)]: the [for] loop returns in its
    first iteration; falling off the end returns [None]. *)
Definition get_member_emoji (emoji_name : string) (emojis : list Emoji)
  : option Emoji :=
  match emojis with
  | [] => None
  | _ =>
      match emojis with
      | [] => None
      | e :: _ => if String.eqb emoji_name (name e) then Some e else None
      end
  end.

(** ** The remote data gateway ([DataStorage] in [db.py])

    A JSON-decoded Python value. *)
Inductive pyval : Type :=
| PNone
| PBool (b : bool)
| PInt (z : Z)
| PStr (s : string)
| PList (l : list pyval)
| PDict (d : list (string * pyval)).

(** [d.get(k)] / [d[k]] on the entries of a dict. *)
Fixpoint dict_lookup (k : string) (d : list (string * pyval)) : option pyval :=
  match d with
  | [] => None
  | (k', v) :: d' => if String.eqb k k' then Some v else dict_lookup k d'
  end.

(** [v.get(k)]: only dicts have [.get]. *)
Definition py_get (v : pyval) (k : string) : outcome pyval :=
  match v with
  | PDict d =>
      match dict_lookup k d with Some x => Ret x | None => Ret PNone end
  | _ => Exc AttributeError
  end.

(** [v[k]] with a string key. *)
Definition py_getitem (v : pyval) (k : string) : outcome pyval :=
  match v with
  | PDict d =>
      match dict_lookup k d with Some x => Ret x | None => Exc KeyError end
  | _ => Exc TypeError
  end.

(** Python truthiness. *)
Definition truthy (v : pyval) : bool :=
  match v with
  | PNone => false
  | PBool b => b
  | PInt z => negb (Z.eqb z 0)
  | PStr s => negb (String.eqb s "")
  | PList l => match l with [] => false | _ => true end
  | PDict d => match d with [] => false | _ => true end
  end.

(** [k in v]: key membership for a dict, element membership for a list,
    substring for a string; other values raise [TypeError]. *)
Definition py_contains (k : string) (v : pyval) : outcome bool :=
  match v with
  | PDict d => Ret (existsb (fun kv => String.eqb (fst kv) k) d)
  | PList l =>
      Ret (existsb (fun x => match x with PStr s => String.eqb s k
                                        | _ => false end) l)
  | PStr s => Ret (match index 0 k s with Some _ => true | None => false end)
  | _ => Exc TypeError
  end.

(** What [requests] produced for one call: a [RequestException]
    (transport failure), a response with its status code, its JSON body
    (decoded) and its reason phrase, or a response whose body is not JSON
    (an empty body, an HTML error page), on which [response.json()] raises
    [JSONDecodeError].  The request body sent is irrelevant to the result
    and is not modelled. *)
Inductive http_result : Type :=
| TransportError
| Response (status_code : Z) (json : pyval) (reason : string)
| NonJsonResponse (status_code : Z) (reason : string).

Definition error_dict (code : Z) (message : pyval) : pyval :=
  PDict [("status_code", PInt code); ("message", message)].

(** [DataStorage.write]. *)
Definition write (r : http_result) : outcome pyval :=
  match r with
  | TransportError => Ret PNone
  | Response c j _ =>
      if Z.eqb c 201 then Ret j else Ret (error_dict c j)
  | NonJsonResponse _ _ => Exc JSONDecodeError
  end.

(** [DataStorage.update]. *)
Definition update (r : http_result) : outcome pyval :=
  match r with
  | TransportError => Ret PNone
  | Response c j _ =>
      if Z.eqb c 200 then Ret j else Ret (error_dict c j)
  | NonJsonResponse _ _ => Exc JSONDecodeError
  end.

(** [DataStorage.read]. *)
Definition read (r : http_result) : outcome pyval :=
  match r with
  | TransportError => Ret PNone
  | Response c j reason =>
      if Z.eqb c 200 then py_get j "data" else Ret (error_dict c (PStr reason))
  | NonJsonResponse c reason =>
      if Z.eqb c 200 then Exc JSONDecodeError else Ret (error_dict c (PStr reason))
  end.

(** [DataStorage.delete]. *)
Definition delete (r : http_result) : outcome pyval :=
  match r with
  | TransportError => Ret PNone
  | Response c j reason =>
      if Z.eqb c 200 then Ret j else Ret (error_dict c (PStr reason))
  | NonJsonResponse c reason =>
      if Z.eqb c 200 then Exc JSONDecodeError else Ret (error_dict c (PStr reason))
  end.

(** [DataStorage.get_all_members]: a non-200 response falls off the end of
    the method, which returns [None]. *)
Definition get_all_members (r : http_result) : outcome pyval :=
  match r with
  | TransportError => Ret (PList [])
  | Response c j _ =>
      if Z.eqb c 200 then py_getitem j "data" else Ret PNone
  | NonJsonResponse c _ =>
      if Z.eqb c 200 then Exc JSONDecodeError else Ret PNone
  end.

(** ** Readers of [message_utils.py]

    Each takes the value the gateway call returned ([response]); the
    [DataStorage] construction before it is assumed to have succeeded. *)

(** [get_room_messages]: [return response or []]. *)
Definition get_room_messages (response : pyval) : outcome pyval :=
  if truthy response then Ret response else Ret (PList []).

(** [get_message]: [if response and "status_code" not in response]. *)
Definition get_message (response : pyval) : outcome pyval :=
  if truthy response then
    (b <- py_contains "status_code" response ;;
     if negb b then Ret response else Ret (PDict []))
  else Ret (PDict []).

(** [update_reaction], after [DB.update] returned [response]. *)
Definition update_reaction (response : pyval) : outcome pyval :=
  if truthy response then
    (b <- py_contains "status_code" response ;;
     if negb b then Ret response else Ret (PDict []))
  else Ret (PDict []).

(** The shapes the gateway documents for its results: [None], a dict, or a
    list of documents (dicts). *)
Definition gateway_shape (v : pyval) : Prop :=
  match v with
  | PNone => True
  | PDict _ => True
  | PList l => Forall (fun x => exists d, x = PDict d) l
  | _ => False
  end.

(** A top-level [status_code] key. *)
Definition has_status_code (v : pyval) : bool :=
  match v with
  | PDict d => existsb (fun kv => String.eqb (fst kv) "status_code") d
  | _ => false
  end.

(** ** Further code of [message_utils.py] and [db.py] *)


(** [get_org_messages], after [DB.read(MESSAGE_COLLECTION, {})] returned
    [response]. *)
Definition get_org_messages (response : pyval) : outcome pyval :=
  if truthy response then
    (b <- py_contains "status_code" response ;;
     if negb b then Ret response else Ret (PDict []))
  else Ret (PDict []).

(** [member["_id"] == member_id]: a value of another type than [str] is
    never equal to a string. *)
Definition id_matches (member_id : string) (v : pyval) : bool :=
  match v with
  | PStr s => String.eqb s member_id
  | _ => false
  end.

(** The [for member in members] loop of [DataStorage.get_member]; leaving
    the loop returns [{}]. *)
Fixpoint get_member_loop (member_id : string) (members : list pyval)
  : outcome pyval :=
  match members with
  | [] => Ret (PDict [])
  | m :: ms =>
      v <- py_getitem m "_id" ;;
      if id_matches member_id v then Ret m else get_member_loop member_id ms
  end.

(** [DataStorage.get_member(member_id, members)].  A falsy [members]
    returns [{}]; iterating a dict yields its keys (strings), iterating a
    string its characters, and indexing a string with ["_id"] raises
    [TypeError]; numbers and booleans are not iterable. *)
Definition get_member (member_id : string) (members : pyval) : outcome pyval :=
  if negb (truthy members) then Ret (PDict [])
  else match members with
       | PList l => get_member_loop member_id l
       | PDict d => get_member_loop member_id (map (fun kv => PStr (fst kv)) d)
       | _ => Exc TypeError
       end.



(** Errors of [DataStorage.__init__] and of the calls that construct a
    [DataStorage]: the [HTTPException] 408 raised for a [RequestException],
    the [StopIteration] of [next] when no plugin matches (not caught), and
    the Python errors raised by the lookup or by the code after it. *)
Inductive init_error : Type :=
| RequestTimeout
| StopIteration
| InitExc (e : pyexc).

Definition lift_init {A} (c : outcome A) : init_error + A :=
  match c with
  | Ret a => inr a
  | Exc e => inl (InitExc e)
  end.

Definition init_bind {A B} (c : init_error + A) (k : A -> init_error + B)
  : init_error + B :=
  match c with
  | inr a => k a
  | inl e => inl e
  end.

Notation "x <-- c ;;; k" := (init_bind c (fun x => k))
  (at level 61, c at next level, right associativity).

(** [next(item for item in plugins if PLUGIN_KEY in item["template_url"])]
    followed by [plugin.get("id")]. *)
Fixpoint find_plugin (plugin_key : string) (items : list pyval)
  : init_error + pyval :=
  match items with
  | [] => inl StopIteration
  | item :: rest =>
      url <-- lift_init (py_getitem item "template_url") ;;;
      b <-- lift_init (py_contains plugin_key url) ;;;
      if b then lift_init (py_get item "id") else find_plugin plugin_key rest
  end.

(** Iterating [plugins]: a dict yields its keys, a string its characters
    (indexing either with ["template_url"] raises [TypeError]); other
    values are not iterable. *)
Definition iter_plugins (plugin_key : string) (plugins : pyval)
  : init_error + pyval :=
  match plugins with
  | PList l => find_plugin plugin_key l
  | PDict d => find_plugin plugin_key (map (fun kv => PStr (fst kv)) d)
  | PStr s => if String.eqb s "" then inl StopIteration else inl (InitExc TypeError)
  | _ => inl (InitExc TypeError)
  end.

(** [DataStorage.__init__]: the plugin id it resolves from the marketplace
    response [r] (its status code is not looked at).  A body that is not JSON
    makes [response.json()] raise [requests.exceptions.JSONDecodeError], a
    [RequestException] (requests 2.27 and later), turned into the 408. *)
Definition init_plugin_id (plugin_key : string) (r : http_result)
  : init_error + pyval :=
  match r with
  | TransportError => inl RequestTimeout
  | Response _ j _ =>
      data <-- lift_init (py_get j "data") ;;;
      plugins <-- lift_init (py_get data "plugins") ;;;
      iter_plugins plugin_key plugins
  | NonJsonResponse _ _ => inl RequestTimeout
  end.


(** [PLUGIN_KEY in item["template_url"]] for a plugin entry with a string
    [template_url]. *)
Definition url_has_key (plugin_key : string) (item : pyval) : bool :=
  match item with
  | PDict d =>
      match dict_lookup "template_url" d with
      | Some (PStr url) => match index 0 plugin_key url with Some _ => true | None => false end
      | _ => false
      end
  | _ => false
  end.

(** A well-formed message: distinct reaction names, and every reaction has
    [count == len(reactedUsersId) >= 1] with no user twice. *)
Definition wf_reaction (e : Emoji) : Prop :=
  count e = Z.of_nat (length (reactedUsersId e)) /\ 1 <= count e /\
  NoDup (reactedUsersId e).

(** The contract the spec states for [find_reaction_by_name] (spec §4.1),
    written from the spec's words to be compared with [get_member_emoji]:
    the first reaction whose name equals the requested name. *)
Definition find_reaction_by_name_spec (emoji_name : string) (reactions : list Emoji)
  : option Emoji :=
  find (fun e => String.eqb emoji_name (name e)) reactions.

(** The data-model invariant of a reaction: [count == len(reactedUsersId)]
    and [count >= 0]. *)
Definition count_inv (e : Emoji) : Prop :=
  count e = Z.of_nat (length (reactedUsersId e)) /\ 0 <= count e.

(** ** Lemmas on the Python list primitives *)

Lemma py_in_app (u : string) (a b : list string) :
  py_in u (a ++ b) = py_in u a || py_in u b.
Proof. unfold py_in. apply existsb_app. Qed.

Lemma py_in_cons (u x : string) (a : list string) :
  py_in u (x :: a) = String.eqb u x || py_in u a.
Proof. reflexivity. Qed.

(** [xs.remove(u)] on a list containing [u] drops its first occurrence. *)
Lemma py_remove_first (u : string) (xs : list string) :
  py_in u xs = true ->
  exists pre post,
    xs = pre ++ u :: post /\ py_in u pre = false /\
    py_remove u xs = Ret (pre ++ post).
Proof.
  induction xs as [|y ys IH]; intros H; [discriminate|].
  rewrite py_in_cons in H. cbn [py_remove].
  destruct (String.eqb y u) eqn:Eyu.
  - apply String.eqb_eq in Eyu; subst y.
    exists [], ys. repeat split; reflexivity.
  - assert (Euy : String.eqb u y = false)
      by (rewrite String.eqb_sym; exact Eyu).
    rewrite Euy in H. rewrite orb_false_l in H.
    destruct (IH H) as (pre & post & Hxs & Hpre & Hr).
    exists (y :: pre), post. rewrite Hr. simpl. rewrite Hxs.
    repeat split; [unfold py_in; cbn; rewrite Euy; exact Hpre].
Qed.

Lemma py_remove_app_absent (u : string) (pre post : list string) :
  py_in u pre = false -> py_remove u (pre ++ u :: post) = Ret (pre ++ post).
Proof.
  induction pre as [|y ys IH]; intros H; cbn [app py_remove].
  - rewrite String.eqb_refl. reflexivity.
  - rewrite py_in_cons in H. apply orb_false_iff in H as [H1 H2].
    rewrite String.eqb_sym, H1, (IH H2). reflexivity.
Qed.

(** The first [This] slot of a list. *)
Lemma first_this (l : list slot) :
  In This l -> exists rpre rpost, l = rpre ++ This :: rpost /\ ~ In This rpre.
Proof.
  induction l as [|x l IH]; simpl; intros H; [contradiction|].
  destruct x as [|y].
  - exists [], l. split; [reflexivity | simpl; tauto].
  - destruct H as [H|H]; [discriminate|].
    destruct (IH H) as (rpre & rpost & -> & Hn).
    exists (Other y :: rpre), rpost. split; [reflexivity|].
    simpl. intros [H'|H']; [discriminate | contradiction].
Qed.

Lemma Emoji_eqb_name (a b : Emoji) :
  Emoji_eqb a b = true -> name a = name b.
Proof.
  unfold Emoji_eqb. intros H.
  apply andb_true_iff in H as [H _]. apply andb_true_iff in H as [H _].
  apply String.eqb_eq. exact H.
Qed.

(** [reactions.remove(emoji)] skips the other slots when none of them has
    the name of [emoji]. *)
Lemma remove_slot_first_this (e : Emoji) (rpre rpost : list slot) :
  ~ In This rpre ->
  (forall y, In (Other y) rpre -> name y <> name e) ->
  remove_slot e (rpre ++ This :: rpost) = Ret (rpre ++ rpost).
Proof.
  induction rpre as [|x rpre IH]; simpl; intros Hthis Hname; [reflexivity|].
  destruct x as [|y]; [exfalso; apply Hthis; left; reflexivity|].
  destruct (Emoji_eqb y e) eqn:E.
  - exfalso. apply (Hname y); [left; reflexivity | apply Emoji_eqb_name; exact E].
  - rewrite IH; [reflexivity | |].
    + intros H; apply Hthis; right; exact H.
    + intros y' H; apply Hname; right; exact H.
Qed.

Definition slot_value (e : Emoji) (sl : slot) : Emoji :=
  match sl with This => e | Other y => y end.

Lemma view_eq (s : state) : view s = map (slot_value (emoji s)) (reactions s).
Proof. reflexivity. Qed.

(** With distinct names in the list, [emoji] sits in exactly one slot and no
    other slot shares its name. *)
Lemma unique_this (e : Emoji) (rpre rpost : list slot) :
  NoDup (map name (map (slot_value e) (rpre ++ This :: rpost))) ->
  ~ In This (rpre ++ rpost) /\
  (forall y, In (Other y) rpre -> name y <> name e).
Proof.
  rewrite !map_app. simpl. intros H.
  apply NoDup_remove_2 in H. rewrite <- !map_app in H.
  split.
  - intros Hin. apply H. apply in_map_iff. exists e. split; [reflexivity|].
    apply in_map_iff. exists This. split; [reflexivity | exact Hin].
  - intros y Hy Hn. apply H. apply in_map_iff. exists y. split; [exact Hn|].
    apply in_map_iff. exists (Other y). split; [reflexivity|].
    apply in_or_app. left. exact Hy.
Qed.

(** The full behaviour of [remove_emoji] on a well-formed message. *)
Lemma remove_emoji_present_spec (payload : Emoji) (s : state)
    (u : string) (us : list string) :
  reactedUsersId payload = u :: us ->
  py_in u (reactedUsersId (emoji s)) = true ->
  In This (reactions s) ->
  NoDup (map name (view s)) ->
  exists pre post rpre rpost,
    reactedUsersId (emoji s) = pre ++ u :: post /\ py_in u pre = false /\
    reactions s = rpre ++ This :: rpost /\ ~ In This (rpre ++ rpost) /\
    remove_emoji payload s =
      Ret (mkState (mkEmoji (name (emoji s)) (pre ++ post) (count (emoji s) - 1))
             (if Z.eqb (count (emoji s) - 1) 0 then rpre ++ rpost
              else reactions s)).
Proof.
  intros Hp Hin Hthis Hnd.
  destruct (py_remove_first _ _ Hin) as (pre & post & Hxs & Hpre & Hr).
  destruct (first_this _ Hthis) as (rpre & rpost & Hrs & _).
  rewrite view_eq, Hrs in Hnd.
  destruct (unique_this _ _ _ Hnd) as [Hnot Hname].
  exists pre, post, rpre, rpost.
  repeat split; try assumption.
  unfold remove_emoji. rewrite Hp. simpl. rewrite Hr. simpl.
  destruct (Z.eqb (count (emoji s) - 1) 0) eqn:Ez.
  - rewrite Hrs, remove_slot_first_this.
    + reflexivity.
    + intros H; apply Hnot; apply in_or_app; left; exact H.
    + exact Hname.
  - reflexivity.
Qed.


(** ** Reaction engine: claims *)

(** C1: with a non-empty payload [reactedUsersId], [toggle_reaction] performs
    [append_emoji] when the acting user [reactedUsersId[0]] is not in the
    reaction's [reactedUsersId], and [remove_emoji] otherwise. *)
Theorem toggle_reaction_dispatch (payload : Emoji) (s : state)
    (u : string) (us : list string)
    (Hp : reactedUsersId payload = u :: us) :
  toggle_reaction payload s =
    if py_in u (reactedUsersId (emoji s)) then remove_emoji payload s
    else append_emoji payload s.
Proof.
  unfold toggle_reaction. rewrite Hp. cbn [obind py_index0].
  destruct (py_in u (reactedUsersId (emoji s))); reflexivity.
Qed.

Lemma toggle_reaction_dispatch_witness :
  reactedUsersId (mkEmoji "t" ["u1"] 1) = "u1" :: [] /\
  toggle_reaction (mkEmoji "t" ["u1"] 1) (mkState (mkEmoji "t" ["u2"] 1) [This]) =
    append_emoji (mkEmoji "t" ["u1"] 1) (mkState (mkEmoji "t" ["u2"] 1) [This]).
Proof.
  split; [reflexivity|].
  exact (toggle_reaction_dispatch (mkEmoji "t" ["u1"] 1)
           (mkState (mkEmoji "t" ["u2"] 1) [This]) "u1" [] eq_refl).
Defined.

Lemma append_emoji_inv (payload : Emoji) (s s' : state) (u : string)
    (us : list string) :
  reactedUsersId payload = u :: us -> count_inv (emoji s) ->
  append_emoji payload s = Ret s' -> count_inv (emoji s').
Proof.
  intros Hp [Hc Hn] H. unfold append_emoji in H. rewrite Hp in H.
  cbn in H. injection H as <-. unfold count_inv. cbn.
  rewrite length_app. cbn. lia.
Qed.

Lemma remove_emoji_inv (payload : Emoji) (s s' : state) (u : string)
    (us : list string) :
  reactedUsersId payload = u :: us -> count_inv (emoji s) ->
  py_in u (reactedUsersId (emoji s)) = true ->
  remove_emoji payload s = Ret s' -> count_inv (emoji s').
Proof.
  intros Hp [Hc Hn] Hin H.
  destruct (py_remove_first _ _ Hin) as (pre & post & Hxs & _ & Hr).
  unfold remove_emoji in H. cbv zeta in H. rewrite Hp in H. cbn [obind py_index0] in H.
  rewrite Hr in H. cbn [obind] in H.
  rewrite Hxs, length_app in Hc. cbn in Hc.
  assert (E : forall rs, Ret (mkState (mkEmoji (name (emoji s)) (pre ++ post)
                (count (emoji s) - 1)) rs) = Ret s' ->
              count_inv (emoji s')).
  { intros rs Hs. injection Hs as <-. unfold count_inv. cbn.
    rewrite length_app. lia. }
  cbn [count emoji] in H.
  destruct (Z.eqb (count (emoji s) - 1) 0).
  - destruct (remove_slot _ (reactions s)); cbn in H; [exact (E _ H)|discriminate].
  - exact (E _ H).
Qed.

(** C2: [count == len(reactedUsersId)] and [count >= 0] hold again for the
    reaction returned by [append_emoji] (acting user absent), by
    [remove_emoji] (acting user present) and by [toggle_reaction]. *)
Theorem count_invariant_preserved (payload : Emoji) (s : state)
    (u : string) (us : list string)
    (Hp : reactedUsersId payload = u :: us) (Hinv : count_inv (emoji s)) :
  (py_in u (reactedUsersId (emoji s)) = false ->
   forall s', append_emoji payload s = Ret s' -> count_inv (emoji s')) /\
  (py_in u (reactedUsersId (emoji s)) = true ->
   forall s', remove_emoji payload s = Ret s' -> count_inv (emoji s')) /\
  (forall s', toggle_reaction payload s = Ret s' -> count_inv (emoji s')).
Proof.
  split; [|split].
  - intros _ s'. exact (append_emoji_inv _ _ _ _ _ Hp Hinv).
  - intros Hin s'. exact (remove_emoji_inv _ _ _ _ _ Hp Hinv Hin).
  - intros s' H. unfold toggle_reaction in H. rewrite Hp in H. cbn [obind py_index0] in H.
    destruct (py_in u (reactedUsersId (emoji s))) eqn:Hin; cbn in H.
    + exact (remove_emoji_inv _ _ _ _ _ Hp Hinv Hin H).
    + exact (append_emoji_inv _ _ _ _ _ Hp Hinv H).
Qed.

Lemma count_invariant_preserved_witness :
  reactedUsersId (mkEmoji "t" ["u1"] 1) = "u1" :: [] /\
  count_inv (mkEmoji "t" ["u1"; "u2"] 2) /\
  (forall s', toggle_reaction (mkEmoji "t" ["u1"] 1)
                (mkState (mkEmoji "t" ["u1"; "u2"] 2) [This]) = Ret s' ->
              count_inv (emoji s')).
Proof.
  assert (Hinv : count_inv (mkEmoji "t" ["u1"; "u2"] 2))
    by (unfold count_inv; cbn; lia).
  split; [reflexivity|]. split; [exact Hinv|].
  exact (proj2 (proj2 (count_invariant_preserved (mkEmoji "t" ["u1"] 1)
          (mkState (mkEmoji "t" ["u1"; "u2"] 2) [This]) "u1" [] eq_refl Hinv))).
Defined.

Lemma append_emoji_eq (payload : Emoji) (s : state) (u : string)
    (us : list string) :
  reactedUsersId payload = u :: us ->
  append_emoji payload s =
    Ret (mkState (mkEmoji (name (emoji s)) (reactedUsersId (emoji s) ++ [u])
                          (count (emoji s) + 1))
                 (reactions s)).
Proof. intros Hp. unfold append_emoji. rewrite Hp. reflexivity. Qed.

Lemma remove_emoji_eq (payload : Emoji) (s : state) (u : string)
    (us users : list string) :
  reactedUsersId payload = u :: us ->
  py_remove u (reactedUsersId (emoji s)) = Ret users ->
  remove_emoji payload s =
    if Z.eqb (count (emoji s) - 1) 0 then
      (rs <- remove_slot (mkEmoji (name (emoji s)) users (count (emoji s) - 1))
                         (reactions s) ;;
       Ret (mkState (mkEmoji (name (emoji s)) users (count (emoji s) - 1)) rs))
    else Ret (mkState (mkEmoji (name (emoji s)) users (count (emoji s) - 1))
                      (reactions s)).
Proof.
  intros Hp Hr. unfold remove_emoji. cbv zeta. rewrite Hp. cbn [obind py_index0].
  rewrite Hr. reflexivity.
Qed.

Lemma toggle_reaction_eq (payload : Emoji) (s : state) (u : string)
    (us : list string) :
  reactedUsersId payload = u :: us ->
  toggle_reaction payload s =
    if py_in u (reactedUsersId (emoji s)) then remove_emoji payload s
    else append_emoji payload s.
Proof.
  intros Hp. unfold toggle_reaction. rewrite Hp. cbn [obind py_index0].
  destruct (py_in u (reactedUsersId (emoji s))); reflexivity.
Qed.

(** C3: on a message whose reactions have distinct names and that holds
    [emoji], [remove_emoji] with an acting user present in [reactedUsersId]
    removes exactly that user id (its first occurrence), decrements [count] by
    exactly 1, and drops [emoji] from [reactions] if and only if the new
    [count] is 0; the other slots of [reactions] are left as they were. *)
Theorem remove_emoji_removes_user (payload : Emoji) (s : state)
    (u : string) (us : list string)
    (Hp : reactedUsersId payload = u :: us)
    (Hin : py_in u (reactedUsersId (emoji s)) = true)
    (Hthis : In This (reactions s))
    (Hnd : NoDup (map name (view s))) :
  exists s' pre post rpre rpost,
    remove_emoji payload s = Ret s' /\
    reactedUsersId (emoji s) = pre ++ u :: post /\ py_in u pre = false /\
    reactedUsersId (emoji s') = pre ++ post /\
    name (emoji s') = name (emoji s) /\
    count (emoji s') = count (emoji s) - 1 /\
    reactions s = rpre ++ This :: rpost /\
    reactions s' = (if Z.eqb (count (emoji s')) 0 then rpre ++ rpost
                    else reactions s) /\
    (In This (reactions s') <-> count (emoji s') <> 0).
Proof.
  destruct (remove_emoji_present_spec _ _ _ _ Hp Hin Hthis Hnd)
    as (pre & post & rpre & rpost & Hxs & Hpre & Hrs & Hnot & Hr).
  eexists; exists pre, post, rpre, rpost.
  split; [exact Hr|]. cbn [emoji reactedUsersId name count reactions].
  repeat split; try assumption.
  - destruct (Z.eqb (count (emoji s) - 1) 0) eqn:Ez; [contradiction|].
    intros _. apply Z.eqb_neq. exact Ez.
  - intros Hc. destruct (Z.eqb (count (emoji s) - 1) 0) eqn:Ez.
    + apply Z.eqb_eq in Ez. contradiction.
    + exact Hthis.
Qed.

Lemma remove_emoji_removes_user_witness :
  py_in "U1" ["U1"; "U2"] = true /\ In This [This] /\
  NoDup (map name (view (mkState (mkEmoji "E" ["U1"; "U2"] 2) [This]))) /\
  remove_emoji (mkEmoji "E" ["U1"] 1) (mkState (mkEmoji "E" ["U1"; "U2"] 2) [This])
    = Ret (mkState (mkEmoji "E" ["U2"] 1) [This]) /\
  exists s' pre post rpre rpost,
    remove_emoji (mkEmoji "E" ["U1"] 1) (mkState (mkEmoji "E" ["U1"; "U2"] 2) [This])
      = Ret s' /\
    ["U1"; "U2"] = pre ++ "U1" :: post /\ py_in "U1" pre = false /\
    reactedUsersId (emoji s') = pre ++ post /\
    name (emoji s') = "E" /\ count (emoji s') = 2 - 1 /\
    [This] = rpre ++ This :: rpost /\
    reactions s' = (if Z.eqb (count (emoji s')) 0 then rpre ++ rpost else [This]) /\
    (In This (reactions s') <-> count (emoji s') <> 0).
Proof.
  assert (Hnd : NoDup (map name (view (mkState (mkEmoji "E" ["U1"; "U2"] 2) [This]))))
    by (cbn; constructor; [intros []|constructor]).
  split; [reflexivity|]. split; [left; reflexivity|]. split; [exact Hnd|].
  split; [reflexivity|].
  exact (remove_emoji_removes_user (mkEmoji "E" ["U1"] 1)
           (mkState (mkEmoji "E" ["U1"; "U2"] 2) [This]) "U1" [] eq_refl eq_refl
           (or_introl eq_refl) Hnd).
Defined.

(** C4: when the acting user is absent from [reactedUsersId], [append_emoji]
    appends exactly that user id at the end of [reactedUsersId] and
    increments [count] by exactly 1 (name and the list [reactions] are
    unchanged). *)
Theorem append_emoji_appends_user (payload : Emoji) (s : state)
    (u : string) (us : list string)
    (Hp : reactedUsersId payload = u :: us)
    (Habs : py_in u (reactedUsersId (emoji s)) = false) :
  append_emoji payload s =
    Ret (mkState (mkEmoji (name (emoji s)) (reactedUsersId (emoji s) ++ [u])
                          (count (emoji s) + 1))
                 (reactions s)).
Proof. exact (append_emoji_eq payload s u us Hp). Qed.

Lemma append_emoji_appends_user_witness :
  py_in "U3" ["U1"; "U2"] = false /\
  append_emoji (mkEmoji "E" ["U3"] 1) (mkState (mkEmoji "E" ["U1"; "U2"] 2) [This])
    = Ret (mkState (mkEmoji "E" (["U1"; "U2"] ++ ["U3"]) (2 + 1)) [This]).
Proof.
  split; [reflexivity|].
  exact (append_emoji_appends_user (mkEmoji "E" ["U3"] 1)
           (mkState (mkEmoji "E" ["U1"; "U2"] 2) [This]) "U3" [] eq_refl eq_refl).
Defined.

(** C5 fails: toggling twice with the same user is not a no-op when the
    first toggle removes.  (a) The sole reactor [U1] of a reaction: the first
    toggle drops the reaction from the list, the second re-adds [U1] to the
    detached dict only, and the list stays empty.  (b) With [U1; U2], the
    second toggle re-appends [U1] at the end: [U2; U1]. *)
Lemma toggle_twice_counterexample :
  count_inv (mkEmoji "E" ["U1"] 1) /\
  (s1 <- toggle_reaction (mkEmoji "E" ["U1"] 1) (mkState (mkEmoji "E" ["U1"] 1) [This]) ;;
   toggle_reaction (mkEmoji "E" ["U1"] 1) s1)
    = Ret (mkState (mkEmoji "E" ["U1"] 1) []) /\
  view (mkState (mkEmoji "E" ["U1"] 1) [])
    <> view (mkState (mkEmoji "E" ["U1"] 1) [This]) /\
  count_inv (mkEmoji "E" ["U1"; "U2"] 2) /\
  (s1 <- toggle_reaction (mkEmoji "E" ["U1"] 1)
           (mkState (mkEmoji "E" ["U1"; "U2"] 2) [This]) ;;
   toggle_reaction (mkEmoji "E" ["U1"] 1) s1)
    = Ret (mkState (mkEmoji "E" ["U2"; "U1"] 2) [This]) /\
  view (mkState (mkEmoji "E" ["U2"; "U1"] 2) [This])
    <> view (mkState (mkEmoji "E" ["U1"; "U2"] 2) [This]).
Proof.
  unfold count_inv. cbn.
  repeat split; try reflexivity; try lia; discriminate.
Qed.

(** C5, as the code behaves.  With the acting user [u]:
    (a) add then remove: on a reaction with [count <> 0] that [u] has not
        reacted with, two toggles give back the exact prior state;
    (b) remove then add: when [u] occurs once in [reactedUsersId] and
        [count <> 1], the list [reactions] is unchanged and the reaction keeps
        its count, but [u] moves to the end of [reactedUsersId];
    (c) remove then add on a reaction whose only reactor is [u] (count 1, in
        a message with distinct reaction names): the reaction is dropped from
        [reactions] and not put back; the detached dict gets its old value. *)
Theorem toggle_twice (payload : Emoji) (s : state) (u : string)
    (us : list string)
    (Hp : reactedUsersId payload = u :: us) :
  (py_in u (reactedUsersId (emoji s)) = false -> count (emoji s) <> 0 ->
   (s1 <- toggle_reaction payload s ;; toggle_reaction payload s1) = Ret s) /\
  (forall pre post,
     reactedUsersId (emoji s) = pre ++ u :: post ->
     py_in u pre = false -> py_in u post = false -> count (emoji s) <> 1 ->
     (s1 <- toggle_reaction payload s ;; toggle_reaction payload s1) =
       Ret (mkState (mkEmoji (name (emoji s)) (pre ++ post ++ [u]) (count (emoji s)))
                    (reactions s))) /\
  (count_inv (emoji s) -> count (emoji s) = 1 ->
   py_in u (reactedUsersId (emoji s)) = true ->
   In This (reactions s) -> NoDup (map name (view s)) ->
   exists rpre rpost,
     reactions s = rpre ++ This :: rpost /\ ~ In This (rpre ++ rpost) /\
     (s1 <- toggle_reaction payload s ;; toggle_reaction payload s1) =
       Ret (mkState (emoji s) (rpre ++ rpost))).
Proof.
  destruct s as [[n xs c] rs]. cbn [emoji reactedUsersId name count reactions].
  split; [|split].
  - intros Habs Hc.
    rewrite (toggle_reaction_eq _ _ _ _ Hp). cbn [emoji reactedUsersId].
    rewrite Habs, (append_emoji_eq _ _ _ _ Hp). cbn [obind emoji reactedUsersId name count reactions].
    rewrite (toggle_reaction_eq _ _ _ _ Hp). cbn [emoji reactedUsersId].
    rewrite py_in_app, py_in_cons, String.eqb_refl, orb_true_r. cbn [orb].
    rewrite (remove_emoji_eq _ _ _ _ xs Hp);
      [|cbn [emoji reactedUsersId]; apply (py_remove_app_absent u xs []) in Habs;
        rewrite app_nil_r in Habs; exact Habs].
    cbn [emoji name count reactions].
    replace (c + 1 - 1) with c by lia.
    destruct (Z.eqb c 0) eqn:Ez; [apply Z.eqb_eq in Ez; contradiction|].
    reflexivity.
  - intros pre post Hxs Hpre Hpost Hc.
    assert (Hin : py_in u xs = true)
      by (rewrite Hxs, py_in_app, py_in_cons, String.eqb_refl, orb_true_r; reflexivity).
    rewrite (toggle_reaction_eq _ _ _ _ Hp). cbn [emoji reactedUsersId]. rewrite Hin.
    rewrite (remove_emoji_eq _ _ _ _ (pre ++ post) Hp);
      [|cbn [emoji reactedUsersId]; rewrite Hxs; apply py_remove_app_absent; exact Hpre].
    cbn [emoji name count reactions].
    destruct (Z.eqb (c - 1) 0) eqn:Ez; [apply Z.eqb_eq in Ez; lia|].
    cbn [obind].
    rewrite (toggle_reaction_eq _ _ _ _ Hp). cbn [emoji reactedUsersId].
    rewrite py_in_app, Hpre, Hpost. cbn [orb].
    rewrite (append_emoji_eq _ _ _ _ Hp). cbn [emoji name count reactedUsersId reactions].
    rewrite <- app_assoc. replace (c - 1 + 1) with c by lia. reflexivity.
  - intros [Hlen _] Hc Hin Hthis Hnd.
    destruct (remove_emoji_present_spec payload (mkState (mkEmoji n xs c) rs) _ _ Hp Hin Hthis Hnd)
      as (pre & post & rpre & rpost & Hxs & Hpre & Hrs & Hnot & Hr).
    cbn [emoji reactedUsersId name count reactions] in *.
    exists rpre, rpost. split; [exact Hrs|]. split; [exact Hnot|].
    rewrite (toggle_reaction_eq _ _ _ _ Hp). cbn [emoji reactedUsersId]. rewrite Hin.
    rewrite Hr. rewrite Hc in Hlen |- *. cbn [Z.eqb Z.sub obind].
    rewrite Hxs, length_app in Hlen. cbn [length] in Hlen.
    destruct pre; [|cbn [length] in Hlen; lia].
    destruct post; [|cbn [length] in Hlen; lia].
    rewrite (toggle_reaction_eq _ _ _ _ Hp). cbn [emoji reactedUsersId app py_in existsb].
    rewrite (append_emoji_eq _ _ _ _ Hp). cbn. rewrite Hxs. reflexivity.
Qed.

Lemma toggle_twice_witness :
  reactedUsersId (mkEmoji "E" ["U1"] 1) = "U1" :: [] /\
  (s1 <- toggle_reaction (mkEmoji "E" ["U1"] 1) (mkState (mkEmoji "E" ["U2"] 1) [This]) ;;
   toggle_reaction (mkEmoji "E" ["U1"] 1) s1)
    = Ret (mkState (mkEmoji "E" ["U2"] 1) [This]).
Proof.
  split; [reflexivity|].
  apply (proj1 (toggle_twice (mkEmoji "E" ["U1"] 1) (mkState (mkEmoji "E" ["U2"] 1) [This])
                 "U1" [] eq_refl)); cbn; [reflexivity | lia].
Defined.

(** ** Lookup by name: claims *)

(** C6 fails: [get_member_emoji], the lookup of the reaction engine, returns
    [None] for a list whose matching reaction is not the first one, where the
    spec's lookup returns that reaction. *)
Theorem get_member_emoji_misses_later_match :
  get_member_emoji "E" [mkEmoji "a" ["U1"] 1; mkEmoji "E" ["U2"] 1] = None /\
  find_reaction_by_name_spec "E" [mkEmoji "a" ["U1"] 1; mkEmoji "E" ["U2"] 1]
    = Some (mkEmoji "E" ["U2"] 1).
Proof. split; reflexivity. Qed.

(** C7: [get_member_emoji] returns [None] on an empty list, and on a
    non-empty list it returns the first element when its name matches and
    [None] otherwise, whatever the rest of the list is. *)
Theorem get_member_emoji_first_only (emoji_name : string) :
  get_member_emoji emoji_name [] = None /\
  forall e rest,
    get_member_emoji emoji_name (e :: rest) =
      if String.eqb emoji_name (name e) then Some e else None.
Proof. split; [reflexivity | intros e rest; reflexivity]. Qed.

(** ** Gateway: claims *)

(** C8 fails for [get_all_members]: a transport failure returns [[]], the
    same value as a successful listing with no members, and a non-2xx
    response returns [None] rather than an error dict. *)
Lemma get_all_members_counterexample :
  get_all_members TransportError = Ret (PList []) /\
  get_all_members (Response 200 (PDict [("data", PList [])]) "OK") = Ret (PList []) /\
  get_all_members (Response 404 (PDict []) "Not Found") = Ret PNone.
Proof. repeat split. Qed.

(** C8, as the code behaves: [write], [update], [read] and [delete] return
    [None] on a transport failure.  On a non-2xx status [c], [read] and
    [delete] return the error dict [{"status_code": c, "message": reason}];
    [write] and [update] return [{"status_code": c, "message": body}] when
    the body is JSON and raise [JSONDecodeError] when it is not.
    [get_all_members] returns the empty list on a transport failure, the
    same value as a successful listing whose ["data"] is empty. *)
Theorem gateway_failure_results (c : Z) (j : pyval) (reason : string)
    (Hc : ~ (200 <= c < 300)) :
  write TransportError = Ret PNone /\
  update TransportError = Ret PNone /\
  read TransportError = Ret PNone /\
  delete TransportError = Ret PNone /\
  write (Response c j reason) = Ret (error_dict c j) /\
  update (Response c j reason) = Ret (error_dict c j) /\
  write (NonJsonResponse c reason) = Exc JSONDecodeError /\
  update (NonJsonResponse c reason) = Exc JSONDecodeError /\
  read (Response c j reason) = Ret (error_dict c (PStr reason)) /\
  read (NonJsonResponse c reason) = Ret (error_dict c (PStr reason)) /\
  delete (Response c j reason) = Ret (error_dict c (PStr reason)) /\
  delete (NonJsonResponse c reason) = Ret (error_dict c (PStr reason)) /\
  get_all_members TransportError = Ret (PList []) /\
  (forall d ok, dict_lookup "data" d = Some (PList []) ->
   get_all_members (Response 200 (PDict d) ok) = get_all_members TransportError).
Proof.
  assert (H200 : Z.eqb c 200 = false) by (apply Z.eqb_neq; lia).
  assert (H201 : Z.eqb c 201 = false) by (apply Z.eqb_neq; lia).
  cbn [write update read delete get_all_members].
  rewrite H200, H201. repeat split.
  intros d ok Hd. cbn. rewrite Hd. reflexivity.
Qed.

Lemma gateway_failure_results_witness :
  ~ (200 <= 502 < 300) /\
  update (NonJsonResponse 502 "Bad Gateway") = Exc JSONDecodeError /\
  get_all_members (Response 200 (PDict [("status", PInt 200); ("data", PList [])]) "OK")
    = get_all_members TransportError.
Proof.
  assert (Hc : ~ (200 <= 502 < 300)) by lia.
  split; [exact Hc|].
  destruct (gateway_failure_results 502 PNone "Bad Gateway" Hc)
    as (_ & _ & _ & _ & _ & _ & _ & Hupd & _ & _ & _ & _ & _ & Hgam).
  split; [exact Hupd|].
  exact (Hgam [("status", PInt 200); ("data", PList [])] "OK" eq_refl).
Defined.

Lemma no_status_code_string (l : list pyval) :
  Forall (fun x => exists d, x = PDict d) l ->
  existsb (fun x => match x with PStr s => String.eqb s "status_code"
                               | _ => false end) l = false.
Proof.
  induction 1 as [|x l [d ->] _ IH]; [reflexivity|]. exact IH.
Qed.

Lemma contains_status_code (response : pyval) :
  gateway_shape response -> truthy response = true ->
  py_contains "status_code" response = Ret (has_status_code response).
Proof.
  destruct response; cbn; try contradiction; intros H Ht;
    try discriminate; try reflexivity.
  rewrite (no_status_code_string _ H). reflexivity.
Qed.

(** C9: for a gateway result of a documented shape ([None], a dict, or a
    list of documents), [get_message] and [update_reaction] return the
    result exactly when it is non-empty and has no top-level [status_code]
    key, and [{}] otherwise. *)
Theorem status_code_discriminator (response : pyval)
    (Hshape : gateway_shape response) :
  get_message response =
    (if truthy response && negb (has_status_code response) then Ret response
     else Ret (PDict [])) /\
  update_reaction response =
    (if truthy response && negb (has_status_code response) then Ret response
     else Ret (PDict [])).
Proof.
  unfold get_message, update_reaction.
  destruct (truthy response) eqn:Ht; [|split; reflexivity].
  rewrite (contains_status_code _ Hshape Ht). cbn [obind].
  destruct (has_status_code response); split; reflexivity.
Qed.

Lemma status_code_discriminator_witness :
  gateway_shape (error_dict 404 (PStr "Not Found")) /\
  get_message (error_dict 404 (PStr "Not Found")) = Ret (PDict []).
Proof.
  assert (H : gateway_shape (error_dict 404 (PStr "Not Found"))) by exact I.
  split; [exact H|].
  exact (proj1 (status_code_discriminator _ H)).
Defined.

(** C10: [get_room_messages] does not look for [status_code]: a dict with a
    [status_code] key (a wrapped error) is returned unchanged, and the result
    is [[]] exactly when the gateway result is falsy. *)
Theorem get_room_messages_passes_errors :
  (forall d, has_status_code (PDict d) = true ->
   get_room_messages (PDict d) = Ret (PDict d)) /\
  (forall response,
   get_room_messages response = Ret (PList []) <-> truthy response = false).
Proof.
  split.
  - intros [|kv d] H; [discriminate|]. reflexivity.
  - intros response. unfold get_room_messages.
    destruct (truthy response) eqn:Ht; split; intros H; try reflexivity.
    + injection H as ->. discriminate.
    + discriminate.
Qed.

(** ** Further properties of the reaction engine *)

Lemma py_in_In (u : string) (l : list string) : py_in u l = true <-> In u l.
Proof.
  unfold py_in. rewrite existsb_exists. split.
  - intros (x & Hx & E). apply String.eqb_eq in E. subst x. exact Hx.
  - intros H. exists u. split; [exact H | apply String.eqb_refl].
Qed.

Lemma py_in_false (u : string) (l : list string) : py_in u l = false <-> ~ In u l.
Proof.
  rewrite <- py_in_In. destruct (py_in u l); split; intros H.
  - discriminate.
  - exfalso. apply H. reflexivity.
  - intros H'. discriminate.
  - reflexivity.
Qed.

Lemma map_name_slot_value (e e' : Emoji) (l : list slot) :
  name e' = name e ->
  map name (map (slot_value e') l) = map name (map (slot_value e) l).
Proof.
  intros H. induction l as [|[|y] l IH]; cbn; [reflexivity | rewrite H, IH | rewrite IH];
    reflexivity.
Qed.

Lemma Forall_slot_value (P : Emoji -> Prop) (e e' : Emoji) (l : list slot) :
  Forall P (map (slot_value e) l) -> P e' -> Forall P (map (slot_value e') l).
Proof.
  intros H He'. induction l as [|[|y] l IH]; cbn in *; [constructor | |];
    inversion H; subst; constructor; auto.
Qed.

Lemma slot_value_no_this (e e' : Emoji) (l : list slot) :
  ~ In This l -> map (slot_value e') l = map (slot_value e) l.
Proof.
  induction l as [|[|y] l IH]; cbn; intros H; [reflexivity | |].
  - exfalso. apply H. left. reflexivity.
  - rewrite IH; [reflexivity|]. intros H'. apply H. right. exact H'.
Qed.

(** When the acting user is present, whatever [remove_emoji] returns carries
    the reaction with that user's first occurrence removed. *)
Lemma remove_emoji_result_emoji (payload : Emoji) (s s' : state) (u : string)
    (us pre post : list string) :
  reactedUsersId payload = u :: us ->
  reactedUsersId (emoji s) = pre ++ u :: post -> py_in u pre = false ->
  remove_emoji payload s = Ret s' ->
  emoji s' = mkEmoji (name (emoji s)) (pre ++ post) (count (emoji s) - 1).
Proof.
  intros Hp Hxs Hpre H.
  rewrite (remove_emoji_eq _ _ _ _ (pre ++ post) Hp) in H;
    [|rewrite Hxs; apply py_remove_app_absent; exact Hpre].
  destruct (Z.eqb _ 0).
  - destruct (remove_slot _ _); cbn in H; [|discriminate].
    injection H as <-. reflexivity.
  - injection H as <-. reflexivity.
Qed.

(** [toggle_reaction] keeps a message well formed: if the reactions have
    distinct names, each with [count == len(reactedUsersId) >= 1] and no
    user twice, and [emoji] is one of them, the same holds for the list
    after the toggle (a reaction that reaches count 0 leaves the list). *)
Theorem toggle_reaction_preserves_wf (payload : Emoji) (s s' : state)
    (u : string) (us : list string)
    (Hp : reactedUsersId payload = u :: us)
    (Hthis : In This (reactions s))
    (Hnd : NoDup (map name (view s)))
    (Hwf : Forall wf_reaction (view s))
    (Ht : toggle_reaction payload s = Ret s') :
  NoDup (map name (view s')) /\ Forall wf_reaction (view s').
Proof.
  assert (He : wf_reaction (emoji s)).
  { rewrite Forall_forall in Hwf. apply Hwf. rewrite view_eq.
    apply in_map_iff. exists This. split; [reflexivity | exact Hthis]. }
  destruct He as (Hc & H1 & Hndu).
  rewrite (toggle_reaction_eq _ _ _ _ Hp) in Ht.
  rewrite view_eq in Hnd, Hwf |- *.
  destruct (py_in u (reactedUsersId (emoji s))) eqn:Hin.
  - destruct (remove_emoji_present_spec _ _ _ _ Hp Hin Hthis)
      as (pre & post & rpre & rpost & Hxs & Hpre & Hrs & Hnot & Hr);
      [rewrite view_eq; exact Hnd|].
    rewrite Hr in Ht. injection Ht as <-. cbn [emoji reactions].
    destruct (Z.eqb (count (emoji s) - 1) 0) eqn:Ez.
    + rewrite (slot_value_no_this (emoji s)) by exact Hnot.
      rewrite Hrs in Hnd, Hwf. rewrite !map_app in *. cbn in Hnd, Hwf.
      split; [exact (NoDup_remove_1 _ _ _ Hnd)|].
      apply Forall_app in Hwf as [Ha Hb]. inversion Hb; subst.
      apply Forall_app; split; assumption.
    + split.
      * rewrite (map_name_slot_value (emoji s)) by reflexivity. exact Hnd.
      * apply (Forall_slot_value _ (emoji s)); [exact Hwf|].
        apply Z.eqb_neq in Ez. rewrite Hxs in Hc, Hndu.
        rewrite length_app in Hc. cbn [length] in Hc.
        unfold wf_reaction. cbn. rewrite length_app.
        split; [lia|]. split; [lia|]. exact (NoDup_remove_1 _ _ _ Hndu).
  - rewrite (append_emoji_eq _ _ _ _ Hp) in Ht. injection Ht as <-.
    cbn [emoji reactions]. split.
    + rewrite (map_name_slot_value (emoji s)) by reflexivity. exact Hnd.
    + apply (Forall_slot_value _ (emoji s)); [exact Hwf|].
      unfold wf_reaction. cbn. rewrite length_app. cbn [length].
      split; [lia|]. split; [lia|].
      apply NoDup_app; [exact Hndu | constructor; [intros []|constructor] |].
      intros x Hx [<-|[]]. apply py_in_false in Hin. contradiction.
Qed.

Lemma toggle_reaction_preserves_wf_witness :
  In This [This; Other (mkEmoji "F" ["U3"] 1)] /\
  NoDup (map name (view (mkState (mkEmoji "E" ["U1"] 1)
                                 [This; Other (mkEmoji "F" ["U3"] 1)]))) /\
  Forall wf_reaction (view (mkState (mkEmoji "E" ["U1"] 1)
                                    [This; Other (mkEmoji "F" ["U3"] 1)])) /\
  toggle_reaction (mkEmoji "E" ["U1"] 1)
    (mkState (mkEmoji "E" ["U1"] 1) [This; Other (mkEmoji "F" ["U3"] 1)])
    = Ret (mkState (mkEmoji "E" [] 0) [Other (mkEmoji "F" ["U3"] 1)]) /\
  NoDup (map name (view (mkState (mkEmoji "E" [] 0) [Other (mkEmoji "F" ["U3"] 1)]))) /\
  Forall wf_reaction (view (mkState (mkEmoji "E" [] 0) [Other (mkEmoji "F" ["U3"] 1)])).
Proof.
  assert (Hthis : In This [This; Other (mkEmoji "F" ["U3"] 1)]) by (left; reflexivity).
  assert (Hnd : NoDup (map name (view (mkState (mkEmoji "E" ["U1"] 1)
                                 [This; Other (mkEmoji "F" ["U3"] 1)]))))
    by (cbn; constructor; [intros [H|[]]; discriminate | constructor; [intros []|constructor]]).
  assert (Hwf : Forall wf_reaction (view (mkState (mkEmoji "E" ["U1"] 1)
                                    [This; Other (mkEmoji "F" ["U3"] 1)])))
    by (cbn; repeat constructor; cbn; try lia; intros []).
  assert (Ht : toggle_reaction (mkEmoji "E" ["U1"] 1)
    (mkState (mkEmoji "E" ["U1"] 1) [This; Other (mkEmoji "F" ["U3"] 1)])
    = Ret (mkState (mkEmoji "E" [] 0) [Other (mkEmoji "F" ["U3"] 1)]))
    by reflexivity.
  do 4 (split; [assumption|]).
  exact (toggle_reaction_preserves_wf (mkEmoji "E" ["U1"] 1)
           (mkState (mkEmoji "E" ["U1"] 1) [This; Other (mkEmoji "F" ["U3"] 1)])
           _ "U1" [] eq_refl Hthis Hnd Hwf Ht).
Defined.

(** [toggle_reaction] flips the acting user's membership and no one
    else's: on a reaction with no user twice, after a successful toggle
    the acting user is in [reactedUsersId] exactly when it was not before,
    and every other user is in it exactly when it was before. *)
Theorem toggle_reaction_flips_membership (payload : Emoji) (s s' : state)
    (u : string) (us : list string)
    (Hp : reactedUsersId payload = u :: us)
    (Hndu : NoDup (reactedUsersId (emoji s)))
    (Ht : toggle_reaction payload s = Ret s') :
  py_in u (reactedUsersId (emoji s')) = negb (py_in u (reactedUsersId (emoji s))) /\
  forall v, v <> u ->
    py_in v (reactedUsersId (emoji s')) = py_in v (reactedUsersId (emoji s)).
Proof.
  rewrite (toggle_reaction_eq _ _ _ _ Hp) in Ht.
  destruct (py_in u (reactedUsersId (emoji s))) eqn:Hin.
  - destruct (py_remove_first _ _ Hin) as (pre & post & Hxs & Hpre & _).
    rewrite (remove_emoji_result_emoji _ _ _ _ _ _ _ Hp Hxs Hpre Ht).
    cbn [reactedUsersId negb].
    rewrite Hxs in Hndu. apply NoDup_remove_2 in Hndu.
    split.
    + apply py_in_false. exact Hndu.
    + intros v Hv. rewrite Hxs, !py_in_app, py_in_cons.
      assert (E : String.eqb v u = false) by (apply String.eqb_neq; exact Hv).
      rewrite E. reflexivity.
  - rewrite (append_emoji_eq _ _ _ _ Hp) in Ht. injection Ht as <-.
    cbn [emoji reactedUsersId negb]. split.
    + rewrite py_in_app, py_in_cons, String.eqb_refl, !orb_true_r. reflexivity.
    + intros v Hv. assert (E : String.eqb v u = false) by (apply String.eqb_neq; exact Hv).
      rewrite py_in_app, py_in_cons, E. change (py_in v []) with false.
      rewrite !orb_false_r. reflexivity.
Qed.

Lemma toggle_reaction_flips_membership_witness :
  NoDup ["U1"; "U2"] /\
  toggle_reaction (mkEmoji "E" ["U1"] 1) (mkState (mkEmoji "E" ["U1"; "U2"] 2) [This])
    = Ret (mkState (mkEmoji "E" ["U2"] 1) [This]) /\
  py_in "U1" ["U2"] = negb (py_in "U1" ["U1"; "U2"]).
Proof.
  assert (Hndu : NoDup ["U1"; "U2"])
    by (constructor; [intros [H|[]]; discriminate | constructor; [intros []|constructor]]).
  assert (Ht : toggle_reaction (mkEmoji "E" ["U1"] 1)
                 (mkState (mkEmoji "E" ["U1"; "U2"] 2) [This])
               = Ret (mkState (mkEmoji "E" ["U2"] 1) [This])) by reflexivity.
  split; [exact Hndu|]. split; [exact Ht|].
  exact (proj1 (toggle_reaction_flips_membership (mkEmoji "E" ["U1"] 1)
                  (mkState (mkEmoji "E" ["U1"; "U2"] 2) [This]) _ "U1" []
                  eq_refl Hndu Ht)).
Defined.

Lemma remove_slot_absent (e : Emoji) (l : list slot) :
  ~ In This l -> (forall y, In (Other y) l -> name y <> name e) ->
  remove_slot e l = Exc ValueError.
Proof.
  induction l as [|[|y] l IH]; cbn; intros Hthis Hname; [reflexivity| |].
  - exfalso. apply Hthis. left. reflexivity.
  - destruct (Emoji_eqb y e) eqn:E.
    + exfalso. apply (Hname y); [left; reflexivity | apply Emoji_eqb_name; exact E].
    + rewrite IH; [reflexivity | |].
      * intros H. apply Hthis. right. exact H.
      * intros y' H. apply Hname. right. exact H.
Qed.

(** The failures of the reaction engine: an empty payload
    [reactedUsersId] makes all three functions raise [IndexError];
    [remove_emoji] with an acting user not in [reactedUsersId] raises
    [ValueError]; and when the count reaches 0 for a reaction that is not in
    [reactions] (no slot is it or has its name), [reactions.remove] raises
    [ValueError]. *)
Theorem reaction_engine_errors (payload : Emoji) (s : state) :
  (reactedUsersId payload = [] ->
   toggle_reaction payload s = Exc IndexError /\
   append_emoji payload s = Exc IndexError /\
   remove_emoji payload s = Exc IndexError) /\
  (forall u us, reactedUsersId payload = u :: us ->
   py_in u (reactedUsersId (emoji s)) = false ->
   remove_emoji payload s = Exc ValueError) /\
  (forall u us, reactedUsersId payload = u :: us ->
   py_in u (reactedUsersId (emoji s)) = true ->
   count (emoji s) = 1 ->
   ~ In This (reactions s) ->
   (forall y, In (Other y) (reactions s) -> name y <> name (emoji s)) ->
   remove_emoji payload s = Exc ValueError).
Proof.
  split; [|split].
  - intros Hp. unfold toggle_reaction, append_emoji, remove_emoji. rewrite Hp.
    repeat split.
  - intros u us Hp Habs. unfold remove_emoji. cbv zeta. rewrite Hp.
    cbn [obind py_index0].
    assert (E : py_remove u (reactedUsersId (emoji s)) = Exc ValueError).
    { apply py_in_false in Habs. revert Habs.
      induction (reactedUsersId (emoji s)) as [|y ys IH]; intros H; [reflexivity|].
      cbn. destruct (String.eqb y u) eqn:Eyu.
      - apply String.eqb_eq in Eyu. subst y. exfalso. apply H. left. reflexivity.
      - rewrite IH; [reflexivity|]. intros H'. apply H. right. exact H'. }
    rewrite E. reflexivity.
  - intros u us Hp Hin Hc Hthis Hname.
    destruct (py_remove_first _ _ Hin) as (pre & post & _ & _ & Hr).
    rewrite (remove_emoji_eq _ _ _ _ _ Hp Hr). rewrite Hc. cbn [Z.sub Z.eqb].
    rewrite remove_slot_absent; [reflexivity | exact Hthis |].
    intros y Hy. cbn [name]. exact (Hname y Hy).
Qed.

(** [append_emoji] does not check that the acting user is absent: applied
    to a reaction the user already reacted with, it keeps
    [count == len(reactedUsersId)] but lists the user twice. *)
Theorem append_emoji_duplicate_user (payload : Emoji) (s s' : state)
    (u : string) (us : list string)
    (Hp : reactedUsersId payload = u :: us)
    (Hinv : count_inv (emoji s))
    (Hin : py_in u (reactedUsersId (emoji s)) = true)
    (Ha : append_emoji payload s = Ret s') :
  count_inv (emoji s') /\ ~ NoDup (reactedUsersId (emoji s')).
Proof.
  split; [exact (append_emoji_inv _ _ _ _ _ Hp Hinv Ha)|].
  rewrite (append_emoji_eq _ _ _ _ Hp) in Ha. injection Ha as <-.
  cbn [emoji reactedUsersId]. intros Hnd.
  apply py_in_In in Hin.
  apply NoDup_remove_2 in Hnd. apply Hnd. apply in_or_app. left. exact Hin.
Qed.

Lemma append_emoji_duplicate_user_witness :
  count_inv (mkEmoji "E" ["U1"] 1) /\
  append_emoji (mkEmoji "E" ["U1"] 1) (mkState (mkEmoji "E" ["U1"] 1) [This])
    = Ret (mkState (mkEmoji "E" ["U1"; "U1"] 2) [This]) /\
  ~ NoDup ["U1"; "U1"].
Proof.
  assert (Hinv : count_inv (mkEmoji "E" ["U1"] 1)) by (unfold count_inv; cbn; lia).
  assert (Ha : append_emoji (mkEmoji "E" ["U1"] 1) (mkState (mkEmoji "E" ["U1"] 1) [This])
               = Ret (mkState (mkEmoji "E" ["U1"; "U1"] 2) [This])) by reflexivity.
  split; [exact Hinv|]. split; [exact Ha|].
  exact (proj2 (append_emoji_duplicate_user (mkEmoji "E" ["U1"] 1)
                  (mkState (mkEmoji "E" ["U1"] 1) [This]) _ "U1" []
                  eq_refl Hinv eq_refl Ha)).
Defined.

Lemma reaction_engine_errors_witness :
  remove_emoji (mkEmoji "E" ["U1"] 1) (mkState (mkEmoji "E" ["U1"] 1) [])
    = Exc ValueError.
Proof.
  apply (proj2 (proj2 (reaction_engine_errors (mkEmoji "E" ["U1"] 1)
                          (mkState (mkEmoji "E" ["U1"] 1) [])))
           "U1" [] eq_refl eq_refl eq_refl).
  - intros [].
  - intros y [].
Defined.

(** ** Further properties of the gateway and its callers *)

(** [member["_id"] == member_id] for an element of [members]. *)
Definition member_has_id (member_id : string) (m : pyval) : bool :=
  match m with
  | PDict d =>
      match dict_lookup "_id" d with Some v => id_matches member_id v | None => false end
  | _ => false
  end.

Lemma get_member_loop_find (member_id : string) (l : list pyval) :
  Forall (fun m => exists d v, m = PDict d /\ dict_lookup "_id" d = Some v) l ->
  get_member_loop member_id l =
    Ret (match find (member_has_id member_id) l with
         | Some m => m
         | None => PDict []
         end).
Proof.
  induction 1 as [|m l (d & v & -> & Hv) _ IH]; [reflexivity|].
  cbn [get_member_loop find member_has_id py_getitem]. rewrite Hv.
  cbn [obind]. destruct (id_matches member_id v); [reflexivity | exact IH].
Qed.

Lemma get_member_loop_missing_id (member_id : string) (pre post : list pyval)
    (d : list (string * pyval)) :
  Forall (fun m => exists d v, m = PDict d /\ dict_lookup "_id" d = Some v) pre ->
  find (member_has_id member_id) pre = None ->
  dict_lookup "_id" d = None ->
  get_member_loop member_id (pre ++ PDict d :: post) = Exc KeyError.
Proof.
  intros Hpre Hf Hd.
  induction Hpre as [|m l (d' & v & -> & Hv) _ IH]; cbn [app get_member_loop].
  - cbn [py_getitem]. rewrite Hd. reflexivity.
  - cbn [find member_has_id] in Hf. rewrite Hv in Hf.
    cbn [py_getitem]. rewrite Hv. cbn [obind].
    destruct (id_matches member_id v); [discriminate | exact (IH Hf)].
Qed.

(** [DataStorage.get_member]: a falsy [members] ([None], [[]]) gives [{}];
    on a list of member dicts that all have an ["_id"] it returns the first
    member whose ["_id"] is [member_id], and [{}] when there is none; a
    member dict without ["_id"] reached before any match raises [KeyError]. *)
Theorem get_member_lookup (member_id : string) :
  (forall members, truthy members = false ->
   get_member member_id members = Ret (PDict [])) /\
  (forall l, Forall (fun m => exists d v, m = PDict d /\ dict_lookup "_id" d = Some v) l ->
   get_member member_id (PList l) =
     Ret (match find (member_has_id member_id) l with
          | Some m => m
          | None => PDict []
          end)) /\
  (forall pre d post,
   Forall (fun m => exists d v, m = PDict d /\ dict_lookup "_id" d = Some v) pre ->
   find (member_has_id member_id) pre = None ->
   dict_lookup "_id" d = None ->
   get_member member_id (PList (pre ++ PDict d :: post)) = Exc KeyError).
Proof.
  split; [|split].
  - intros members H. unfold get_member. rewrite H. reflexivity.
  - intros l Hl. unfold get_member.
    destruct l as [|m l']; [reflexivity|]. cbn [truthy negb].
    exact (get_member_loop_find member_id _ Hl).
  - intros pre d post Hpre Hf Hd. unfold get_member.
    assert (Ht : truthy (PList (pre ++ PDict d :: post)) = true)
      by (destruct pre; reflexivity).
    rewrite Ht. cbn [negb].
    exact (get_member_loop_missing_id member_id pre post d Hpre Hf Hd).
Qed.

Lemma get_member_lookup_witness :
  get_member "m2" (PList [PDict [("_id", PStr "m1")]; PDict [("_id", PStr "m2")]])
    = Ret (PDict [("_id", PStr "m2")]).
Proof.
  apply (proj1 (proj2 (get_member_lookup "m2"))).
  repeat constructor; eexists; eexists; split; reflexivity.
Defined.

(** [get_org_messages] uses the same discriminator as [get_message]: for a
    gateway result of a documented shape it returns the result exactly when
    it is non-empty and has no top-level [status_code] key, and [{}]
    otherwise. *)
Theorem get_org_messages_discriminator (response : pyval)
    (Hshape : gateway_shape response) :
  get_org_messages response =
    (if truthy response && negb (has_status_code response) then Ret response
     else Ret (PDict [])).
Proof.
  unfold get_org_messages.
  destruct (truthy response) eqn:Ht; [|reflexivity].
  rewrite (contains_status_code _ Hshape Ht). cbn [obind].
  destruct (has_status_code response); reflexivity.
Qed.

Lemma get_org_messages_discriminator_witness :
  get_org_messages (PList [PDict [("_id", PStr "m1")]])
    = Ret (PList [PDict [("_id", PStr "m1")]]).
Proof.
  apply (get_org_messages_discriminator (PList [PDict [("_id", PStr "m1")]])).
  repeat constructor. eexists. reflexivity.
Defined.



(** [DataStorage.read]'s [None] is not only the transport-failure sentinel:
    a 200 response whose body has no ["data"] key, or a null one, returns
    [None] as well. *)
Theorem read_none_ambiguous (d : list (string * pyval)) (reason : string)
    (Hd : dict_lookup "data" d = None \/ dict_lookup "data" d = Some PNone) :
  read (Response 200 (PDict d) reason) = read TransportError.
Proof.
  cbn [read Z.eqb py_get]. destruct Hd as [H|H]; rewrite H; reflexivity.
Qed.

Lemma read_none_ambiguous_witness :
  read (Response 200 (PDict [("status", PInt 200)]) "OK") = Ret PNone.
Proof.
  exact (read_none_ambiguous [("status", PInt 200)] "OK" (or_introl eq_refl)).
Defined.



(** [DataStorage.get_all_members] on a 200 response with a dict body
    returns the body's ["data"] and raises [KeyError] when that key is
    missing; a body that is not a dict raises [TypeError]. *)
Theorem get_all_members_success (j : pyval) (reason : string) :
  (forall d v, j = PDict d -> dict_lookup "data" d = Some v ->
   get_all_members (Response 200 j reason) = Ret v) /\
  (forall d, j = PDict d -> dict_lookup "data" d = None ->
   get_all_members (Response 200 j reason) = Exc KeyError) /\
  ((forall d, j <> PDict d) ->
   get_all_members (Response 200 j reason) = Exc TypeError).
Proof.
  cbn [get_all_members Z.eqb]. split; [|split].
  - intros d v -> H. cbn. rewrite H. reflexivity.
  - intros d -> H. cbn. rewrite H. reflexivity.
  - intros H. destruct j; try reflexivity. exfalso. exact (H d eq_refl).
Qed.

Lemma get_all_members_success_witness :
  get_all_members (Response 200 (PDict [("data", PList [PDict [("_id", PStr "u1")]])]) "OK")
    = Ret (PList [PDict [("_id", PStr "u1")]]).
Proof.
  exact (proj1 (get_all_members_success
                  (PDict [("data", PList [PDict [("_id", PStr "u1")]])]) "OK")
           _ _ eq_refl eq_refl).
Defined.

Lemma find_plugin_find (plugin_key : string) (l : list pyval) :
  Forall (fun item => exists d url, item = PDict d /\
            dict_lookup "template_url" d = Some (PStr url)) l ->
  find_plugin plugin_key l =
    match find (url_has_key plugin_key) l with
    | Some item => lift_init (py_get item "id")
    | None => inl StopIteration
    end.
Proof.
  induction 1 as [|item l (d & url & -> & Hu) _ IH]; [reflexivity|].
  cbn [find_plugin find url_has_key py_getitem]. rewrite Hu.
  cbn [lift_init init_bind py_contains].
  destruct (index 0 plugin_key url); [reflexivity | exact IH].
Qed.

(** [DataStorage.__init__] resolves the plugin id as follows: a transport
    failure raises the 408 [HTTPException]; whatever the status code, a
    marketplace body whose ["data"] is a dict whose ["plugins"] is a list
    of dicts with a string ["template_url"] (at any position among the other
    keys) gives the ["id"] of the first plugin whose ["template_url"]
    contains [PLUGIN_KEY] ([None] if it has no id), and when none does,
    [next] raises [StopIteration], which is not turned into the 408. *)
Theorem init_plugin_id_spec (plugin_key : string) (c : Z) (reason : string)
    (outer dd : list (string * pyval)) (l : list pyval)
    (Hdata : dict_lookup "data" outer = Some (PDict dd))
    (Hplugins : dict_lookup "plugins" dd = Some (PList l))
    (Hl : Forall (fun item => exists d url, item = PDict d /\
            dict_lookup "template_url" d = Some (PStr url)) l) :
  init_plugin_id plugin_key TransportError = inl RequestTimeout /\
  init_plugin_id plugin_key (Response c (PDict outer) reason) =
    match find (url_has_key plugin_key) l with
    | Some item => lift_init (py_get item "id")
    | None => inl StopIteration
    end.
Proof.
  split; [reflexivity|].
  cbn [init_plugin_id py_get]. rewrite Hdata. cbn [lift_init init_bind py_get].
  rewrite Hplugins. cbn [lift_init init_bind iter_plugins].
  exact (find_plugin_find plugin_key l Hl).
Qed.

Lemma init_plugin_id_spec_witness :
  init_plugin_id "zc_messaging"
    (Response 200 (PDict [("status", PInt 200); ("message", PStr "success");
        ("data", PDict [("total", PInt 2); ("plugins", PList
          [PDict [("id", PStr "a"); ("template_url", PStr "https://x/zc_other")];
           PDict [("id", PStr "b"); ("template_url", PStr "https://x/zc_messaging")]])])]) "OK")
    = inr (PStr "b").
Proof.
  rewrite (proj2 (init_plugin_id_spec "zc_messaging" 200 "OK"
    [("status", PInt 200); ("message", PStr "success");
     ("data", PDict [("total", PInt 2); ("plugins", PList
        [PDict [("id", PStr "a"); ("template_url", PStr "https://x/zc_other")];
         PDict [("id", PStr "b"); ("template_url", PStr "https://x/zc_messaging")]])])]
    [("total", PInt 2); ("plugins", PList
        [PDict [("id", PStr "a"); ("template_url", PStr "https://x/zc_other")];
         PDict [("id", PStr "b"); ("template_url", PStr "https://x/zc_messaging")]])]
    [PDict [("id", PStr "a"); ("template_url", PStr "https://x/zc_other")];
     PDict [("id", PStr "b"); ("template_url", PStr "https://x/zc_messaging")]]
    eq_refl eq_refl
    ltac:(repeat constructor; do 2 eexists; split; reflexivity))).
  reflexivity.
Defined.
